(** * Live2DCubismAvatarComponent: a shallow embedding and its properties

    The development follows [src/cubism/Live2DCubismAvatarComponent.h] and
    [src/cubism/Live2DCubismAvatarComponent.cpp].  The component is an
    Unreal-Engine actor component whose methods are placeholders; every
    method is embedded as a function on an explicit state, made of the
    part of the world the methods read or write ([World]) and of the
    fields of the object itself ([ULive2DCubismAvatarComponent]). *)

From Stdlib Require Import ZArith String List Floats.SpecFloat.
From stdpp Require Import gmap strings list.

Local Open Scope string_scope.

(** ** Values of the engine *)

(** C++ [float] is IEEE-754 binary32; a value is a specification float of
    precision 24 and maximal exponent 128.  Equality of two such values in
    canonical form is equality of their bits. *)
Definition float : Type := spec_float.
Definition float_prec : Z := 24.
Definition float_emax : Z := 128.
Definition float_valid (x : float) : bool := valid_binary float_prec float_emax x.

(** The conversion of an integer literal to [float]. *)
Definition float_of_Z (z : Z) : float := binary_normalize float_prec float_emax z 0 false.

(** The literals [0.5f] and [0.0f] of [GetParameterValue]. *)
Definition float_0_5 : float := S754_finite false 8388608 (-24).
Definition float_0_0 : float := S754_zero false.

(** [FString] and [FName] are carried as strings, [uint8] as a byte. *)
Definition FString : Type := string.
Definition FName : Type := string.
Definition uint8 : Type := Byte.byte.

(** A [UObject*] (and the pointers to its subclasses): [None] is [nullptr]. *)
Definition ObjectId : Type := N.
Definition pointer : Type := option ObjectId.

Inductive ELevelTick : Type :=
| LEVELTICK_TimeOnly
| LEVELTICK_ViewportsOnly
| LEVELTICK_All
| LEVELTICK_PauseTick.

Inductive ELogVerbosity : Type :=
| Fatal | Error | Warning | Display | Log | Verbose | VeryVerbose.

#[global] Instance ELogVerbosity_eq_dec : EqDecision ELogVerbosity.
Proof. solve_decision. Defined.

(** One line written by [UE_LOG(LogTemp, verbosity, text)]. *)
Definition LogLine : Type := ELogVerbosity * string.

(** ** The world outside the component

    - [disk]: the files [FPaths::FileExists] and
      [FFileHelper::LoadFileToArray] see.  A path bound to [Some bytes] is a
      file that can be read; a path bound to [None] is a file that exists
      and cannot be read (locked, or not ours to open); an unbound path is
      no file, which is what [FileExists] reports for a directory too.
    - [LogTemp]: the lines of the log category [LogTemp], oldest first.
    - [next_object]: the allocator behind [NewObject]; the objects with a
      smaller identifier are the ones allocated so far. *)
Record World : Type := mkWorld {
  disk : gmap string (option (list uint8));
  LogTemp : list LogLine;
  next_object : ObjectId
}.

Definition FPaths_FileExists (w : World) (path : FString) : bool :=
  bool_decide (is_Some (disk w !! path)).

(** [LoadFileToArray] returns [false] and no data, or [true] and the bytes. *)
Definition FFileHelper_LoadFileToArray (w : World) (path : FString) : option (list uint8) :=
  match disk w !! path with
  | Some (Some bytes) => Some bytes
  | _ => None
  end.

Definition UE_LOG (v : ELogVerbosity) (text : string) (w : World) : World :=
  {| disk := disk w; LogTemp := LogTemp w ++ [(v, text)]; next_object := next_object w |}.

(** [NewObject<UObject>()]: a pointer to an object that did not exist. *)
Definition NewObject (w : World) : ObjectId * World :=
  (next_object w,
   {| disk := disk w; LogTemp := LogTemp w; next_object := N.succ (next_object w) |}).

Definition allocated (w : World) (o : ObjectId) : bool := (o <? next_object w)%N.

(** The lines a call appended to the log, given the world before and after. *)
Definition new_lines (before after : World) : list LogLine :=
  drop (length (LogTemp before)) (LogTemp after).

(** ** The base class

    [UActorComponent] is engine code outside the repository.  The methods
    of the component call into it ([Super::BeginPlay],
    [Super::TickComponent]) and its constructor sets a flag of it
    ([PrimaryComponentTick.bCanEverTick]); the members declared by
    [ULive2DCubismAvatarComponent] are private, so the base class acts on
    its own sub-object only.  It is a parameter of the development. *)
Class Engine : Type := {
  UActorComponent : Type;
  UActorComponent_ctor : UActorComponent;
  set_bCanEverTick : bool -> UActorComponent -> UActorComponent;
  Super_BeginPlay : UActorComponent -> UActorComponent;
  Super_TickComponent : float -> ELevelTick -> pointer -> UActorComponent -> UActorComponent
}.

(** The smallest base class: it only remembers [bCanEverTick]. *)
Definition plain_engine : Engine := {|
  UActorComponent := bool;
  UActorComponent_ctor := false;
  set_bCanEverTick := fun b _ => b;
  Super_BeginPlay := fun base => base;
  Super_TickComponent := fun _ _ _ base => base
|}.

(** ** The component *)

Section Component.
Context {engine : Engine}.

(** The fields of the header, after the base sub-object. *)
Record ULive2DCubismAvatarComponent : Type := mkComponent {
  Super : UActorComponent;
  Live2DModel : pointer;
  RenderTarget : pointer;
  DynamicMaterial : pointer
}.

Definition set_Super (base : UActorComponent) (this : ULive2DCubismAvatarComponent) :
  ULive2DCubismAvatarComponent :=
  {| Super := base; Live2DModel := Live2DModel this;
     RenderTarget := RenderTarget this; DynamicMaterial := DynamicMaterial this |}.

Definition set_Live2DModel (p : pointer) (this : ULive2DCubismAvatarComponent) :
  ULive2DCubismAvatarComponent :=
  {| Super := Super this; Live2DModel := p;
     RenderTarget := RenderTarget this; DynamicMaterial := DynamicMaterial this |}.

(** The constructor.  The memory of a [UObject] is zeroed before its
    constructor runs, so the three pointers start as [nullptr]. *)
Definition ULive2DCubismAvatarComponent_ctor : ULive2DCubismAvatarComponent :=
  {| Super := set_bCanEverTick true UActorComponent_ctor;
     Live2DModel := None; RenderTarget := None; DynamicMaterial := None |}.

Definition BeginPlay (w : World) (this : ULive2DCubismAvatarComponent) :
  World * ULive2DCubismAvatarComponent :=
  let this := set_Super (Super_BeginPlay (Super this)) this in
  (UE_LOG Log "Live2D Cubism SDK Initialized (Placeholder)" w, this).

(** The body after the call of the base class is a comment. *)
Definition TickComponent (DeltaTime : float) (TickType : ELevelTick) (ThisTickFunction : pointer)
  (w : World) (this : ULive2DCubismAvatarComponent) : World * ULive2DCubismAvatarComponent :=
  let this := set_Super (Super_TickComponent DeltaTime TickType ThisTickFunction (Super this)) this in
  (w, this).

(** [ModelData] is read and never looked at. *)
Definition LoadLive2DModel (ModelPath : FString)
  (w : World) (this : ULive2DCubismAvatarComponent) : World * ULive2DCubismAvatarComponent :=
  if negb (FPaths_FileExists w ModelPath) then
    (UE_LOG Error ("Model file not found: " ++ ModelPath) w, this)
  else
    match FFileHelper_LoadFileToArray w ModelPath with
    | None => (UE_LOG Error ("Failed to load model file: " ++ ModelPath) w, this)
    | Some ModelData =>
        let w := UE_LOG Log "Live2D model created from data (Placeholder)" w in
        let '(object, w) := NewObject w in
        (w, set_Live2DModel (Some object) this)
    end.

(** The guarded block holds a comment only. *)
Definition SetParameterValue (ParameterName : FName) (Value : float)
  (w : World) (this : ULive2DCubismAvatarComponent) : World * ULive2DCubismAvatarComponent :=
  match Live2DModel this with
  | Some _ => (w, this)
  | None => (w, this)
  end.

(** A [const] method: it returns a value and has no state to hand back. *)
Definition GetParameterValue (ParameterName : FName) (this : ULive2DCubismAvatarComponent) : float :=
  match Live2DModel this with
  | Some _ => float_0_5
  | None => float_0_0
  end.

End Component.

Arguments ULive2DCubismAvatarComponent : clear implicits.
Arguments ULive2DCubismAvatarComponent {engine}.

(** ** The outcome of a call of the parameter interface

    The specification lets [set] and [get] fail with an error; a call ends
    in a returned value or in a failure. *)
Inductive ParameterError : Type :=
| Unknown.

Inductive Outcome (A : Type) : Type :=
| Returned (a : A)
| Failed (e : ParameterError).
Arguments Returned {A} a.
Arguments Failed {A} e.

(** ** The public interface as a sequence of calls *)

Section Interface.
Context {engine : Engine}.

Definition State : Type := World * ULive2DCubismAvatarComponent.

Inductive Call : Type :=
| CallBeginPlay
| CallTickComponent (DeltaTime : float) (TickType : ELevelTick) (ThisTickFunction : pointer)
| CallLoadLive2DModel (ModelPath : FString)
| CallSetParameterValue (ParameterName : FName) (Value : float)
| CallGetParameterValue (ParameterName : FName).

(** What a call hands back: nothing ([void]) or a [float]. *)
Inductive Response : Type :=
| Void
| Value (v : float).

Definition exec (c : Call) (s : State) : Response * State :=
  let '(w, this) := s in
  match c with
  | CallBeginPlay => (Void, BeginPlay w this)
  | CallTickComponent dt ty fn => (Void, TickComponent dt ty fn w this)
  | CallLoadLive2DModel path => (Void, LoadLive2DModel path w this)
  | CallSetParameterValue name v => (Void, SetParameterValue name v w this)
  | CallGetParameterValue name => (Value (GetParameterValue name this), (w, this))
  end.

Fixpoint run (cs : list Call) (s : State) : list Response * State :=
  match cs with
  | [] => ([], s)
  | c :: cs =>
      let '(r, s) := exec c s in
      let '(rs, s) := run cs s in
      (r :: rs, s)
  end.

(** A sequence of [SetParameterValue] calls, from their arguments. *)
Definition set_calls (sets : list (FName * float)) : list Call :=
  map (fun p => CallSetParameterValue (fst p) (snd p)) sets.

(** The calls that evaluate or read: ticks and [GetParameterValue]. *)
Definition is_evaluation (c : Call) : bool :=
  match c with
  | CallTickComponent _ _ _ | CallGetParameterValue _ => true
  | _ => false
  end.

(** What an evaluation or a read may change: the base sub-object only. *)
Definition same_but_Super (s s' : State) : Prop :=
  fst s' = fst s /\
  Live2DModel (snd s') = Live2DModel (snd s) /\
  RenderTarget (snd s') = RenderTarget (snd s) /\
  DynamicMaterial (snd s') = DynamicMaterial (snd s).

(** *** The controller states of the specification, read off the component

    The component has no state field: it holds a model or it does not.
    [LoadLive2DModel] is synchronous, so no caller observes [Loading]. *)
Inductive ControllerState : Type :=
| Unloaded
| Loading
| Ready.

Definition controller_state (this : ULive2DCubismAvatarComponent) : ControllerState :=
  match Live2DModel this with
  | Some _ => Ready
  | None => Unloaded
  end.

(** A call reports a warning (an error) when it appends a line of that
    verbosity to the log: the one way the methods report anything. *)
Definition reports (v : ELogVerbosity) (before after : World) : bool :=
  bool_decide (Exists (fun line => fst line = v) (new_lines before after)).

(** [SetParameterValue] returns [void] and [GetParameterValue] a [float];
    neither throws nor has a status to return, so a call always ends in
    [Returned]. *)
Definition call_SetParameterValue (ParameterName : FName) (Value : float) (s : State) :
  Outcome unit * State :=
  (Returned tt, SetParameterValue ParameterName Value (fst s) (snd s)).

Definition call_GetParameterValue (ParameterName : FName) (s : State) : Outcome float :=
  Returned (GetParameterValue ParameterName (snd s)).

(** A world with one readable file and an empty log. *)
Definition world_with_file (path : FString) (bytes : list uint8) : World :=
  {| disk := {[ path := Some bytes ]}; LogTemp := []; next_object := 1%N |}.

(** The scenario of the specification: construct, load the model file,
    [set(name, value)], then [get(name)]. *)
Definition load_set_get (path : FString) (bytes : list uint8) (name : FName) (value : float) : float :=
  let s := (world_with_file path bytes, ULive2DCubismAvatarComponent_ctor) in
  let s := LoadLive2DModel path (fst s) (snd s) in
  let s := SetParameterValue name value (fst s) (snd s) in
  GetParameterValue name (snd s).

(** The magic header of the specification's loader: a byte sequence carries
    it when it starts with it.  The code compares no byte; the predicate
    only describes inputs. *)
Fixpoint has_magic (magic bytes : list uint8) : bool :=
  match magic, bytes with
  | [], _ => true
  | m :: magic, b :: bytes => Byte.eqb m b && has_magic magic bytes
  | _ :: _, [] => false
  end.

End Interface.

(** The world in which [path] is a readable file holding [bytes]. *)
Definition write_file (path : FString) (bytes : list uint8) (w : World) : World :=
  {| disk := <[ path := Some bytes ]> (disk w); LogTemp := LogTemp w; next_object := next_object w |}.

(** ** Call sequences: what is counted and compared

    The calls of a sequence are told apart by what they can do: a load of
    a file that can be read installs a model, a load of any other path
    fails, [BeginPlay] and every load write one log line, and the two
    parameter calls are the ones a script makes. *)

(** [LoadFileToArray] succeeds on the path. *)
Definition readable (w : World) (path : FString) : bool :=
  match FFileHelper_LoadFileToArray w path with
  | Some _ => true
  | None => false
  end.

Definition loads_ok (w : World) (c : Call) : bool :=
  match c with
  | CallLoadLive2DModel path => readable w path
  | _ => false
  end.

Definition loads_failing (w : World) (c : Call) : bool :=
  match c with
  | CallLoadLive2DModel path => negb (readable w path)
  | _ => false
  end.

(** The calls whose body has a [UE_LOG] that is not commented out. *)
Definition writes_log (c : Call) : bool :=
  match c with
  | CallBeginPlay | CallLoadLive2DModel _ => true
  | _ => false
  end.

(** The calls that reach the base class through [Super::]. *)
Definition calls_Super (c : Call) : bool :=
  match c with
  | CallBeginPlay | CallTickComponent _ _ _ => true
  | _ => false
  end.

Definition is_set_call (c : Call) : bool :=
  match c with
  | CallSetParameterValue _ _ => true
  | _ => false
  end.

Definition is_get_call (c : Call) : bool :=
  match c with
  | CallGetParameterValue _ => true
  | _ => false
  end.

(** The values the reads of a sequence returned, in order. *)
Definition values_read (rs : list Response) : list float :=
  omap (fun r => match r with Value v => Some v | Void => None end) rs.

(** The lines of one verbosity among some lines of the log. *)
Definition count_lines (v : ELogVerbosity) (lines : list LogLine) : nat :=
  length (List.filter (fun line => bool_decide (fst line = v)) lines).

(** The model pointer is null or points to an object that exists. *)
Definition model_is_live {engine : Engine} (s : State) : bool :=
  match Live2DModel (snd s) with
  | Some object => allocated (fst s) object
  | None => true
  end.

(** * Properties *)

(** ** The embedding on concrete inputs *)

Example float_literals_are_binary32 :
  float_valid float_0_5 = true /\ float_valid float_0_0 = true /\
  float_valid (float_of_Z 45) = true /\ float_valid (float_of_Z 30) = true.
Proof. repeat split. Qed.

(** [0.5f * 2 = 1] and [0.5f + 0.5f = 1]: the literal is one half. *)
Example float_0_5_is_one_half :
  SFmul float_prec float_emax float_0_5 (float_of_Z 2) = float_of_Z 1 /\
  SFadd float_prec float_emax float_0_5 float_0_5 = float_of_Z 1.
Proof. split; reflexivity. Qed.

Example has_magic_examples :
  has_magic [Byte.x4d; Byte.x4f] [Byte.x4d; Byte.x4f; Byte.x00] = true /\
  has_magic [Byte.x4d; Byte.x4f] [Byte.x4d] = false /\
  has_magic [Byte.x4d; Byte.x4f] [Byte.x00; Byte.x4f] = false.
Proof. repeat split. Qed.

(** A path that does not exist: one error line, nothing installed. *)
Example load_missing_file :
  LoadLive2DModel "nowhere.moc3" (world_with_file "model.moc3" [])
    (@ULive2DCubismAvatarComponent_ctor plain_engine) =
  ({| disk := {[ "model.moc3" := Some [] ]};
      LogTemp := [(Error, "Model file not found: nowhere.moc3")];
      next_object := 1%N |},
   @ULive2DCubismAvatarComponent_ctor plain_engine).
Proof. vm_compute. reflexivity. Qed.

(** A path that exists and cannot be read: the other error line. *)
Example load_unreadable_file :
  LoadLive2DModel "locked.moc3"
    {| disk := {[ "locked.moc3" := None ]}; LogTemp := []; next_object := 1%N |}
    (@ULive2DCubismAvatarComponent_ctor plain_engine) =
  ({| disk := {[ "locked.moc3" := None ]};
      LogTemp := [(Error, "Failed to load model file: locked.moc3")];
      next_object := 1%N |},
   @ULive2DCubismAvatarComponent_ctor plain_engine).
Proof. vm_compute. reflexivity. Qed.

(** An empty file is loaded; a set and a tick later the read is 0.5. *)
Example load_set_tick_get :
  fst (run [CallBeginPlay; CallLoadLive2DModel "model.moc3";
            CallSetParameterValue "angleX" (float_of_Z 45);
            CallTickComponent float_0_5 LEVELTICK_All None;
            CallGetParameterValue "angleX"]
         (world_with_file "model.moc3" [], @ULive2DCubismAvatarComponent_ctor plain_engine)) =
  [Void; Void; Void; Void; Value float_0_5].
Proof. vm_compute. reflexivity. Qed.

Section Properties.
Context {engine : Engine}.

Implicit Types (w : World) (this : ULive2DCubismAvatarComponent) (s : State).

(** ** The log *)

Lemma new_lines_same w : new_lines w w = [].
Proof. unfold new_lines. apply drop_all. Qed.

Lemma new_lines_UE_LOG v text w : new_lines w (UE_LOG v text w) = [(v, text)].
Proof. unfold new_lines, UE_LOG; simpl. by rewrite drop_app_length. Qed.

Lemma reports_nothing v w : reports v w w = false.
Proof.
  unfold reports. rewrite new_lines_same.
  apply bool_decide_eq_false. intros H. by apply Exists_nil in H.
Qed.

Lemma reports_UE_LOG v v' text w : reports v w (UE_LOG v' text w) = bool_decide (v' = v).
Proof.
  unfold reports. rewrite new_lines_UE_LOG.
  apply bool_decide_ext. rewrite Exists_cons, Exists_nil. simpl. tauto.
Qed.

(** ** The three ways through [LoadLive2DModel] *)

Lemma LoadLive2DModel_missing path w this :
  disk w !! path = None ->
  LoadLive2DModel path w this = (UE_LOG Error ("Model file not found: " ++ path) w, this).
Proof.
  intros Hd. unfold LoadLive2DModel, FPaths_FileExists.
  rewrite Hd. rewrite bool_decide_eq_false_2; [done | by intros [x Hx]].
Qed.

Lemma LoadLive2DModel_unreadable path w this :
  disk w !! path = Some None ->
  LoadLive2DModel path w this = (UE_LOG Error ("Failed to load model file: " ++ path) w, this).
Proof.
  intros Hd. unfold LoadLive2DModel, FPaths_FileExists, FFileHelper_LoadFileToArray.
  rewrite Hd. by rewrite bool_decide_eq_true_2.
Qed.

Lemma LoadLive2DModel_readable path bytes w this :
  disk w !! path = Some (Some bytes) ->
  LoadLive2DModel path w this =
    ({| disk := disk w;
        LogTemp := LogTemp w ++ [(Log, "Live2D model created from data (Placeholder)")];
        next_object := N.succ (next_object w) |},
     set_Live2DModel (Some (next_object w)) this).
Proof.
  intros Hd. unfold LoadLive2DModel, FPaths_FileExists, FFileHelper_LoadFileToArray.
  rewrite Hd. by rewrite bool_decide_eq_true_2.
Qed.

(** ** The parameter interface *)

Lemma SetParameterValue_id name value w this :
  SetParameterValue name value w this = (w, this).
Proof. unfold SetParameterValue. by destruct (Live2DModel this). Qed.

Lemma run_set_calls sets s : snd (run (set_calls sets) s) = s.
Proof.
  revert s. induction sets as [|[n v] sets IH]; intros [w this]; simpl; [done|].
  rewrite SetParameterValue_id.
  specialize (IH (w, this)). destruct (run (set_calls sets) (w, this)) as [rs s'].
  simpl in *. done.
Qed.

(** C9: for every parameter name, [GetParameterValue] returns exactly 0.5
    when [Live2DModel] is non-null and exactly 0.0 when it is null, whatever
    the name and whatever [SetParameterValue] calls came before. *)
Theorem GetParameterValue_placeholder (sets : list (FName * float)) (name : FName) w this :
  GetParameterValue name (snd (snd (run (set_calls sets) (w, this)))) =
    match Live2DModel this with
    | Some _ => float_0_5
    | None => float_0_0
    end.
Proof. by rewrite run_set_calls. Qed.

(** C10: [SetParameterValue] leaves the whole state as it was, for every
    name and value, with or without a model: the world and every field of
    the component are the same, and so is the result of every later
    [GetParameterValue]. *)
Theorem SetParameterValue_changes_nothing (name : FName) (value : float) w this :
  SetParameterValue name value w this = (w, this) /\
  forall name' : FName,
    GetParameterValue name' (snd (SetParameterValue name value w this)) =
    GetParameterValue name' this.
Proof.
  split; [apply SetParameterValue_id|].
  intros name'. by rewrite SetParameterValue_id.
Qed.


(** C1 (amended): [SetParameterValue] stores neither the raw nor a clamped
    value.  After a model file was loaded, [set(name, value)] leaves the
    state as the load left it and the following [get(name)] returns the
    placeholder 0.5, for every name and every value. *)
Theorem set_then_get_after_load (path : FString) bytes (name : FName) (value : float) w this :
  disk w !! path = Some (Some bytes) ->
  let s := LoadLive2DModel path w this in
  SetParameterValue name value (fst s) (snd s) = s /\
  GetParameterValue name (snd (SetParameterValue name value (fst s) (snd s))) = float_0_5.
Proof.
  intros Hd s. subst s. rewrite SetParameterValue_id.
  rewrite (LoadLive2DModel_readable _ _ _ _ Hd). simpl. split; reflexivity.
Qed.

(** C2 (amended): for every parameter name, [SetParameterValue] and
    [GetParameterValue] return normally; the set leaves the state unchanged
    and logs no error, and the get returns 0.5 or 0.0 as a model is held or
    not, the same for every name.  There is no error to fail with. *)
Theorem parameter_calls_never_fail (name : FName) (value : float) s :
  call_SetParameterValue name value s = (Returned tt, s) /\
  reports Error (fst s) (fst (snd (call_SetParameterValue name value s))) = false /\
  call_GetParameterValue name s =
    Returned (match Live2DModel (snd s) with Some _ => float_0_5 | None => float_0_0 end) /\
  forall name' : FName, call_GetParameterValue name' s = call_GetParameterValue name s.
Proof.
  destruct s as [w this]. unfold call_SetParameterValue, call_GetParameterValue. simpl.
  rewrite SetParameterValue_id. simpl. rewrite reports_nothing. done.
Qed.

(** ** Loading *)

(** C3 (amended): [LoadLive2DModel] never looks at the bytes.  A file that
    exists and can be read is loaded whether or not it starts with a magic
    header: the controller becomes [Ready], holding a new object, and no
    error is logged. *)
Theorem load_ignores_magic (magic : list uint8) (path : FString) bytes w this :
  disk w !! path = Some (Some bytes) ->
  has_magic magic bytes = false ->
  let s' := LoadLive2DModel path w this in
  controller_state (snd s') = Ready /\
  Live2DModel (snd s') = Some (next_object w) /\
  reports Error w (fst s') = false.
Proof.
  intros Hd _ s'. subst s'. rewrite (LoadLive2DModel_readable _ _ _ _ Hd). simpl.
  split; [done|]. split; [done|].
  apply (reports_UE_LOG Error Log "Live2D model created from data (Placeholder)" w).
Qed.

Lemma reports_load_created v w o :
  reports v w
    {| disk := disk w;
       LogTemp := LogTemp w ++ [(Log, "Live2D model created from data (Placeholder)")];
       next_object := o |} = bool_decide (Log = v).
Proof. apply (reports_UE_LOG v Log "Live2D model created from data (Placeholder)" w). Qed.

(** C4: [LoadLive2DModel] is all-or-nothing.  Either the file could be
    read and the component holds a newly allocated object, its other fields
    untouched and no error logged; or the load failed, and then the
    component, with the model reference it held, is exactly as before,
    nothing was allocated and an error was logged. *)
Theorem LoadLive2DModel_all_or_nothing (path : FString) w this :
  let s' := LoadLive2DModel path w this in
  (is_Some (FFileHelper_LoadFileToArray w path) /\
   Live2DModel (snd s') = Some (next_object w) /\
   allocated w (next_object w) = false /\
   allocated (fst s') (next_object w) = true /\
   Super (snd s') = Super this /\
   RenderTarget (snd s') = RenderTarget this /\
   DynamicMaterial (snd s') = DynamicMaterial this /\
   reports Error w (fst s') = false)
  \/
  (FFileHelper_LoadFileToArray w path = None /\
   snd s' = this /\
   next_object (fst s') = next_object w /\
   disk (fst s') = disk w /\
   reports Error w (fst s') = true).
Proof.
  intros s'. subst s'. unfold FFileHelper_LoadFileToArray.
  destruct (disk w !! path) as [[bytes|]|] eqn:Hd.
  - left. rewrite (LoadLive2DModel_readable _ _ _ _ Hd). simpl.
    rewrite reports_load_created. unfold allocated. simpl.
    rewrite N.ltb_irrefl. rewrite (proj2 (N.ltb_lt _ _) (N.lt_succ_diag_r _)).
    repeat split; eauto.
  - right. rewrite (LoadLive2DModel_unreadable _ _ _ Hd). simpl.
    rewrite reports_UE_LOG. done.
  - right. rewrite (LoadLive2DModel_missing _ _ _ Hd). simpl.
    rewrite reports_UE_LOG. done.
Qed.

Lemma write_file_lookup path bytes w : disk (write_file path bytes w) !! path = Some (Some bytes).
Proof. unfold write_file; simpl. apply lookup_insert_eq. Qed.

(** C7 (amended): [LoadLive2DModel] validates nothing.  Its result does
    not depend on the bytes of the file: two readable files at the same
    path, whatever deformer graph each encodes, leave the same component,
    the same log and the same allocator, and in both the model is
    installed.  The installed object is a bare [UObject]. *)
Theorem load_is_content_independent (path : FString) (bytes1 bytes2 : list uint8) w this :
  let s1 := LoadLive2DModel path (write_file path bytes1 w) this in
  let s2 := LoadLive2DModel path (write_file path bytes2 w) this in
  snd s1 = snd s2 /\
  LogTemp (fst s1) = LogTemp (fst s2) /\
  next_object (fst s1) = next_object (fst s2) /\
  Live2DModel (snd s1) = Some (next_object w) /\
  reports Error (write_file path bytes1 w) (fst s1) = false.
Proof.
  intros s1 s2. subst s1 s2.
  rewrite (LoadLive2DModel_readable _ _ _ _ (write_file_lookup path bytes1 w)).
  rewrite (LoadLive2DModel_readable _ _ _ _ (write_file_lookup path bytes2 w)).
  cbn [fst snd]. rewrite reports_load_created. done.
Qed.

(** ** Ticking and reading *)

Lemma TickComponent_frame dt ty fn w this :
  TickComponent dt ty fn w this = (w, set_Super (Super_TickComponent dt ty fn (Super this)) this).
Proof. reflexivity. Qed.

(** C6 (amended): [TickComponent] has no state guard and reports nothing.
    In every state, [Unloaded] or [Ready], it returns after the call of the
    base class: the world is the same, no warning is logged, the three
    pointers and the controller state are the same; no evaluation takes
    place, in [Ready] either. *)
Theorem TickComponent_is_silent_no_op (DeltaTime : float) (TickType : ELevelTick)
  (ThisTickFunction : pointer) w this :
  let s' := TickComponent DeltaTime TickType ThisTickFunction w this in
  fst s' = w /\
  reports Warning w (fst s') = false /\
  Live2DModel (snd s') = Live2DModel this /\
  RenderTarget (snd s') = RenderTarget this /\
  DynamicMaterial (snd s') = DynamicMaterial this /\
  controller_state (snd s') = controller_state this.
Proof.
  intros s'. subst s'. rewrite TickComponent_frame. simpl.
  rewrite reports_nothing. done.
Qed.

Lemma exec_evaluation c s :
  is_evaluation c = true -> same_but_Super s (snd (exec c s)).
Proof.
  destruct s as [w this]. destruct c; simpl; try discriminate; intros _; by repeat split.
Qed.

Lemma run_evaluation cs s :
  forallb is_evaluation cs = true -> same_but_Super s (snd (run cs s)).
Proof.
  revert s. induction cs as [|c cs IH]; intros s Hcs; simpl in *.
  - by repeat split.
  - apply andb_prop in Hcs as [Hc Hcs].
    pose proof (exec_evaluation c s Hc) as H1.
    destruct (exec c s) as [r s1]. simpl in H1.
    specialize (IH s1 Hcs). destruct (run cs s1) as [rs s2]. simpl in *.
    destruct H1 as (Hw & Hm & Hr & Hd), IH as (Hw' & Hm' & Hr' & Hd').
    repeat split; congruence.
Qed.

Lemma GetParameterValue_same_but_Super name s s' :
  same_but_Super s s' -> GetParameterValue name (snd s') = GetParameterValue name (snd s).
Proof. intros (_ & Hm & _). unfold GetParameterValue. by rewrite Hm. Qed.

Lemma run_evaluation_responses cs s :
  forallb is_evaluation cs = true ->
  Forall (fun r => r = Void \/ r = Value (GetParameterValue "" (snd s))) (fst (run cs s)).
Proof.
  revert s. induction cs as [|c cs IH]; intros s Hcs; simpl in *; [constructor|].
  apply andb_prop in Hcs as [Hc Hcs].
  pose proof (exec_evaluation c s Hc) as H1.
  assert (fst (exec c s) = Void \/ fst (exec c s) = Value (GetParameterValue "" (snd s))) as Hr.
  { destruct s as [w this]. destruct c; simpl in *; try discriminate; [by left | by right]. }
  destruct (exec c s) as [r s1]. simpl in H1, Hr.
  specialize (IH s1 Hcs). rewrite (GetParameterValue_same_but_Super "" _ _ H1) in IH.
  destruct (run cs s1) as [rs s2]. simpl in *. by constructor.
Qed.

(** C5: evaluation is deterministic and reads are repeatable.  From one
    state, after any two sequences of ticks and reads (of any length, with
    any delta times), [GetParameterValue] answers the same, and the same as
    before them; every read made on the way returned that value, and the
    world and the model reference are what they were. *)
Theorem reads_are_repeatable (cs1 cs2 : list Call) (name : FName) s :
  forallb is_evaluation cs1 = true ->
  forallb is_evaluation cs2 = true ->
  fst (exec (CallGetParameterValue name) (snd (run cs1 s))) =
  fst (exec (CallGetParameterValue name) (snd (run cs2 s))) /\
  fst (exec (CallGetParameterValue name) (snd (run cs1 s))) =
  fst (exec (CallGetParameterValue name) s) /\
  Forall (fun r => r = Void \/ r = fst (exec (CallGetParameterValue name) s)) (fst (run cs1 s)) /\
  fst (snd (run cs1 s)) = fst s /\
  Live2DModel (snd (snd (run cs1 s))) = Live2DModel (snd s).
Proof.
  intros H1 H2.
  pose proof (run_evaluation_responses cs1 s H1) as R1.
  pose proof (run_evaluation cs1 s H1) as E1.
  pose proof (run_evaluation cs2 s H2) as E2.
  pose proof (GetParameterValue_same_but_Super name _ _ E1) as G1.
  pose proof (GetParameterValue_same_but_Super name _ _ E2) as G2.
  destruct E1 as (Hw & Hm & _).
  destruct (snd (run cs1 s)) as [w1 this1], (snd (run cs2 s)) as [w2 this2], s as [w this].
  simpl in *. rewrite G1, G2. done.
Qed.

End Properties.

(** ** Closed instances, on the smallest base class *)

Lemma world_with_file_lookup path bytes :
  disk (world_with_file path bytes) !! path = Some (Some bytes).
Proof. unfold world_with_file; simpl. apply lookup_singleton_eq. Qed.

Lemma load_set_get_placeholder (E : Engine) path bytes name value :
  @load_set_get E path bytes name value = float_0_5.
Proof.
  unfold load_set_get. rewrite SetParameterValue_id. cbn [fst snd].
  rewrite (LoadLive2DModel_readable _ _ _ _ (world_with_file_lookup path bytes)).
  reflexivity.
Qed.

(** C1 (counterexample): whatever the model file holds, loading it, calling
    [set("angleX", 45)] and then [get("angleX")] does not return 30. *)
Lemma angleX_45_is_not_clamped_to_30 :
  ~ exists (E : Engine) (bytes : list uint8),
      @load_set_get E "angleX.model3.json" bytes "angleX" (float_of_Z 45) = float_of_Z 30.
Proof.
  intros (E & bytes & H). rewrite load_set_get_placeholder in H.
  vm_compute in H. discriminate H.
Qed.

Lemma set_then_get_after_load_witness :
  disk (world_with_file "angleX.model3.json" []) !! "angleX.model3.json" = Some (Some []) /\
  GetParameterValue "angleX"
    (snd (SetParameterValue "angleX" (float_of_Z 45)
            (fst (LoadLive2DModel "angleX.model3.json" (world_with_file "angleX.model3.json" [])
                    (@ULive2DCubismAvatarComponent_ctor plain_engine)))
            (snd (LoadLive2DModel "angleX.model3.json" (world_with_file "angleX.model3.json" [])
                    (@ULive2DCubismAvatarComponent_ctor plain_engine))))) = float_0_5.
Proof.
  split.
  - apply world_with_file_lookup.
  - apply (@set_then_get_after_load plain_engine "angleX.model3.json" [] "angleX" (float_of_Z 45)
             (world_with_file "angleX.model3.json" [])
             (@ULive2DCubismAvatarComponent_ctor plain_engine)).
    apply world_with_file_lookup.
Defined.



(** C2 (counterexample): no parameter name, declared or not, makes
    [SetParameterValue] or [GetParameterValue] fail with [Unknown]. *)
Lemma no_name_fails_with_Unknown :
  ~ exists (E : Engine) (name : FName) (value : float) (s : @State E),
      fst (call_SetParameterValue name value s) = Failed Unknown \/
      call_GetParameterValue name s = Failed Unknown.
Proof. intros (E & name & value & s & [H | H]); discriminate H. Qed.

(** C3 (counterexample): there is no magic header whose absence from the
    bytes keeps the controller [Unloaded]: a readable file is loaded. *)
Lemma load_without_magic_installs_a_model :
  ~ exists (magic bytes : list uint8),
      has_magic magic bytes = false /\
      forall (E : Engine) (path : FString),
        controller_state
          (snd (LoadLive2DModel path (world_with_file path bytes)
                  (@ULive2DCubismAvatarComponent_ctor E))) = Unloaded.
Proof.
  intros (magic & bytes & _ & H).
  specialize (H plain_engine "model.moc3").
  rewrite (LoadLive2DModel_readable _ _ _ _ (world_with_file_lookup "model.moc3" bytes)) in H.
  discriminate H.
Qed.

Lemma load_ignores_magic_witness :
  disk (world_with_file "model.moc3" []) !! "model.moc3" = Some (Some []) /\
  has_magic [Byte.x4d; Byte.x4f; Byte.x43; Byte.x33] [] = false /\
  controller_state
    (snd (LoadLive2DModel "model.moc3" (world_with_file "model.moc3" [])
            (@ULive2DCubismAvatarComponent_ctor plain_engine))) = Ready.
Proof.
  split; [apply world_with_file_lookup|]. split; [reflexivity|].
  apply (@load_ignores_magic plain_engine [Byte.x4d; Byte.x4f; Byte.x43; Byte.x33]
           "model.moc3" [] (world_with_file "model.moc3" [])
           (@ULive2DCubismAvatarComponent_ctor plain_engine)).
  - apply world_with_file_lookup.
  - reflexivity.
Defined.

(** C6 (counterexample): a tick in the [Unloaded] state reports no warning. *)
Lemma tick_while_Unloaded_reports_no_warning :
  ~ forall (E : Engine) (DeltaTime : float) (TickType : ELevelTick) (ThisTickFunction : pointer)
      (w : World) (this : @ULive2DCubismAvatarComponent E),
      controller_state this = Unloaded ->
      reports Warning w (fst (TickComponent DeltaTime TickType ThisTickFunction w this)) = true.
Proof.
  intros H.
  specialize (H plain_engine float_0_0 LEVELTICK_All None (world_with_file "" [])
                (@ULive2DCubismAvatarComponent_ctor plain_engine) eq_refl).
  rewrite TickComponent_frame in H. cbn [fst] in H.
  rewrite reports_nothing in H. discriminate H.
Qed.

(** C7 (counterexample): no byte sequence, whatever deformer graph it
    encodes, makes the load of a readable file fail: a model is always
    constructed. *)
Lemma no_bytes_are_rejected :
  ~ exists bytes : list uint8,
      forall (E : Engine) (path : FString),
        Live2DModel
          (snd (LoadLive2DModel path (world_with_file path bytes)
                  (@ULive2DCubismAvatarComponent_ctor E))) = None.
Proof.
  intros (bytes & H).
  specialize (H plain_engine "model.moc3").
  rewrite (LoadLive2DModel_readable _ _ _ _ (world_with_file_lookup "model.moc3" bytes)) in H.
  discriminate H.
Qed.

Lemma reads_are_repeatable_witness :
  forallb is_evaluation
    [CallTickComponent float_0_5 LEVELTICK_All None; CallGetParameterValue "angleX"] = true /\
  forallb is_evaluation [] = true /\
  fst (exec (CallGetParameterValue "angleX")
         (snd (run [CallTickComponent float_0_5 LEVELTICK_All None; CallGetParameterValue "angleX"]
                 (world_with_file "model.moc3" [], @ULive2DCubismAvatarComponent_ctor plain_engine)))) =
  fst (exec (CallGetParameterValue "angleX")
         (snd (run [] (world_with_file "model.moc3" [],
                       @ULive2DCubismAvatarComponent_ctor plain_engine)))).
Proof.
  split; [reflexivity|]. split; [reflexivity|].
  apply (@reads_are_repeatable plain_engine
           [CallTickComponent float_0_5 LEVELTICK_All None; CallGetParameterValue "angleX"] []
           "angleX"
           (world_with_file "model.moc3" [], @ULive2DCubismAvatarComponent_ctor plain_engine));
    reflexivity.
Defined.

(** * Properties of call sequences *)

Section Sequences.
Context {engine : Engine}.

Implicit Types (w : World) (this : ULive2DCubismAvatarComponent) (s : State)
  (c : Call) (cs : list Call).

Lemma run_cons c cs s :
  run (c :: cs) s =
    (fst (exec c s) :: fst (run cs (snd (exec c s))), snd (run cs (snd (exec c s)))).
Proof. simpl. destruct (exec c s) as [r s1]. simpl. by destruct (run cs s1). Qed.


(** A relation between states that every call respects holds along every
    sequence of calls. *)
Lemma run_respects (R : State -> State -> Prop) :
  (forall s, R s s) ->
  (forall s1 s2 s3, R s1 s2 -> R s2 s3 -> R s1 s3) ->
  (forall c s, R s (snd (exec c s))) ->
  forall cs s, R s (snd (run cs s)).
Proof.
  intros Hrefl Htrans Hstep. induction cs as [|c cs IH]; intros s.
  - apply Hrefl.
  - rewrite run_cons. simpl. eapply Htrans; [apply Hstep | apply IH].
Qed.

Lemma readable_true w path :
  readable w path = true -> exists bytes, disk w !! path = Some (Some bytes).
Proof.
  unfold readable, FFileHelper_LoadFileToArray.
  destruct (disk w !! path) as [[bytes|]|]; try discriminate. eauto.
Qed.

Lemma readable_same_disk w w' path : disk w' = disk w -> readable w' path = readable w path.
Proof. intros Hd. unfold readable, FFileHelper_LoadFileToArray. by rewrite Hd. Qed.

Lemma LoadLive2DModel_ok path w this :
  readable w path = true ->
  LoadLive2DModel path w this =
    ({| disk := disk w;
        LogTemp := LogTemp w ++ [(Log, "Live2D model created from data (Placeholder)")];
        next_object := N.succ (next_object w) |},
     set_Live2DModel (Some (next_object w)) this).
Proof. intros [bytes Hd]%readable_true. by apply LoadLive2DModel_readable with bytes. Qed.

Lemma LoadLive2DModel_failing path w this :
  readable w path = false ->
  exists text, LoadLive2DModel path w this = (UE_LOG Error text w, this).
Proof.
  unfold readable, FFileHelper_LoadFileToArray.
  destruct (disk w !! path) as [[bytes|]|] eqn:Hd; try discriminate; intros _.
  - eexists. by apply LoadLive2DModel_unreadable.
  - eexists. by apply LoadLive2DModel_missing.
Qed.

(** What one call does to each part of the state. *)
Lemma exec_effect c s :
  let s' := snd (exec c s) in
  disk (fst s') = disk (fst s) /\
  RenderTarget (snd s') = RenderTarget (snd s) /\
  DynamicMaterial (snd s') = DynamicMaterial (snd s) /\
  (calls_Super c = false -> Super (snd s') = Super (snd s)) /\
  (if loads_ok (fst s) c
   then Live2DModel (snd s') = Some (next_object (fst s)) /\
        next_object (fst s') = N.succ (next_object (fst s))
   else Live2DModel (snd s') = Live2DModel (snd s) /\
        next_object (fst s') = next_object (fst s)) /\
  (if writes_log c
   then exists text,
       LogTemp (fst s') =
         (LogTemp (fst s) ++ [(if loads_failing (fst s) c then Error else Log, text)])%list
   else LogTemp (fst s') = LogTemp (fst s)).
Proof.
  destruct s as [w this]. destruct c as [| dt ty fn | path | name v | name]; simpl.
  - repeat split; eauto; done.
  - repeat split; eauto; done.
  - destruct (readable w path) eqn:Hr.
    + rewrite (LoadLive2DModel_ok _ _ _ Hr). simpl. repeat split; eauto.
    + destruct (LoadLive2DModel_failing path w this Hr) as [text ->]. simpl.
      repeat split; eauto.
  - rewrite SetParameterValue_id. simpl. repeat split; eauto.
  - repeat split; eauto.
Qed.

Lemma exec_disk c s : disk (fst (snd (exec c s))) = disk (fst s).
Proof. apply (exec_effect c s). Qed.

Lemma run_disk cs s : disk (fst (snd (run cs s))) = disk (fst s).
Proof.
  apply (run_respects (fun s s' => disk (fst s') = disk (fst s))); [done | | apply exec_disk].
  intros s1 s2 s3 H12 H23. congruence.
Qed.

(** X1: no sequence of calls changes a file: the component reads the disk
    and never writes it, so a path that could (not) be read before any
    calls can (not) be read after them. *)
Theorem run_never_writes_disk cs s :
  disk (fst (snd (run cs s))) = disk (fst s) /\
  forall path : FString, readable (fst (snd (run cs s))) path = readable (fst s) path.
Proof.
  split; [apply run_disk|]. intros path. apply readable_same_disk, run_disk.
Qed.

Lemma loads_ok_same_disk w w' c : disk w' = disk w -> loads_ok w' c = loads_ok w c.
Proof. intros Hd. destruct c; simpl; try done. by apply readable_same_disk. Qed.

Lemma loads_failing_same_disk w w' c : disk w' = disk w -> loads_failing w' c = loads_failing w c.
Proof. intros Hd. destruct c; simpl; try done. by rewrite (readable_same_disk _ _ _ Hd). Qed.

Lemma existsb_loads_ok_same_disk w w' cs :
  disk w' = disk w -> existsb (loads_ok w') cs = existsb (loads_ok w) cs.
Proof.
  intros Hd. induction cs as [|c cs IH]; simpl; [done|].
  by rewrite IH, (loads_ok_same_disk _ _ _ Hd).
Qed.

Lemma filter_loads_ok_same_disk w w' cs :
  disk w' = disk w -> List.filter (loads_ok w') cs = List.filter (loads_ok w) cs.
Proof.
  intros Hd. induction cs as [|c cs IH]; simpl; [done|].
  by rewrite IH, (loads_ok_same_disk _ _ _ Hd).
Qed.

Lemma filter_loads_failing_same_disk w w' cs :
  disk w' = disk w -> List.filter (loads_failing w') cs = List.filter (loads_failing w) cs.
Proof.
  intros Hd. induction cs as [|c cs IH]; simpl; [done|].
  by rewrite IH, (loads_failing_same_disk _ _ _ Hd).
Qed.

(** X2: after any sequence of calls the controller is [Ready] exactly when
    it was [Ready] before or one of the calls loaded a file that can be
    read: a load that succeeded is never undone, by a failing load, a tick
    or anything else, and nothing but such a load makes the model. *)
Theorem run_controller_state cs s :
  controller_state (snd (snd (run cs s))) =
    if existsb (loads_ok (fst s)) cs then Ready else controller_state (snd s).
Proof.
  revert s. induction cs as [|c cs IH]; intros s; [done|].
  rewrite run_cons. cbn [snd existsb]. rewrite IH.
  rewrite (existsb_loads_ok_same_disk _ _ _ (exec_disk c s)).
  destruct (exec_effect c s) as (_ & _ & _ & _ & Hm & _).
  unfold controller_state.
  destruct (loads_ok (fst s) c); destruct Hm as [-> _]; simpl;
    by destruct (existsb (loads_ok (fst s)) cs).
Qed.

(** ** The log and the allocator *)

Lemma count_lines_app v (l1 l2 : list LogLine) :
  count_lines v (l1 ++ l2) = count_lines v l1 + count_lines v l2.
Proof. unfold count_lines. by rewrite List.filter_app, length_app. Qed.

(** The lines a sequence of calls leaves in the log, after the old ones. *)
Lemma run_log cs s :
  exists lines : list LogLine,
    LogTemp (fst (snd (run cs s))) = (LogTemp (fst s) ++ lines)%list /\
    length lines = length (List.filter writes_log cs) /\
    Forall (fun line => fst line = Error \/ fst line = Log) lines /\
    count_lines Error lines = length (List.filter (loads_failing (fst s)) cs).
Proof.
  revert s. induction cs as [|c cs IH]; intros s.
  - exists []. simpl. rewrite app_nil_r. by repeat split.
  - rewrite run_cons. cbn [snd].
    destruct (IH (snd (exec c s))) as (lines & Hl & Hn & Hv & He).
    rewrite (filter_loads_failing_same_disk _ _ _ (exec_disk c s)) in He.
    destruct (exec_effect c s) as (_ & _ & _ & _ & _ & Hlog).
    destruct c as [| dt ty fn | path | name v | name]; cbn [writes_log] in Hlog.
    + destruct Hlog as [text Hlog]. exists ((Log, text) :: lines).
      rewrite Hl, Hlog, <- app_assoc. simpl in *. repeat split; auto.
    + exists lines. rewrite Hl, Hlog. simpl in *. repeat split; auto.
    + destruct Hlog as [text Hlog].
      exists ((if loads_failing (fst s) (CallLoadLive2DModel path) then Error else Log, text)
                :: lines).
      rewrite Hl, Hlog, <- app_assoc. simpl in *.
      destruct (negb (readable (fst s) path)); simpl.
      * repeat split; auto. unfold count_lines in *. simpl. by rewrite He.
      * repeat split; auto.
    + exists lines. rewrite Hl, Hlog. simpl in *. repeat split; auto.
    + exists lines. rewrite Hl, Hlog. simpl in *. repeat split; auto.
Qed.

Lemma new_lines_app w w' (lines : list LogLine) :
  LogTemp w' = (LogTemp w ++ lines)%list -> new_lines w w' = lines.
Proof. intros Hl. unfold new_lines. rewrite Hl. apply drop_app_length. Qed.

(** X3: the log only grows.  After any sequence of calls the old lines are
    still there, in order, before the new ones; there is one new line for
    each [BeginPlay] and each load and none for a tick, a set or a get; and
    a new line is of verbosity [Error] or [Log], never a warning. *)
Theorem run_only_appends_to_log cs s :
  LogTemp (fst (snd (run cs s))) =
    (LogTemp (fst s) ++ new_lines (fst s) (fst (snd (run cs s))))%list /\
  length (new_lines (fst s) (fst (snd (run cs s)))) = length (List.filter writes_log cs) /\
  Forall (fun line => fst line = Error \/ fst line = Log)
    (new_lines (fst s) (fst (snd (run cs s)))).
Proof.
  destruct (run_log cs s) as (lines & Hl & Hn & Hv & _).
  rewrite (new_lines_app _ _ _ Hl). done.
Qed.

Lemma run_next_object cs s :
  next_object (fst (snd (run cs s))) =
    (next_object (fst s) + N.of_nat (length (List.filter (loads_ok (fst s)) cs)))%N.
Proof.
  revert s. induction cs as [|c cs IH]; intros s.
  - simpl. by rewrite N.add_0_r.
  - rewrite run_cons. cbn [snd]. rewrite IH.
    rewrite (filter_loads_ok_same_disk _ _ _ (exec_disk c s)).
    destruct (exec_effect c s) as (_ & _ & _ & _ & Hm & _).
    cbn [List.filter]. destruct (loads_ok (fst s) c); destruct Hm as [_ ->]; [|done].
    cbn [length]. lia.
Qed.

(** X4: the log and the allocator account for the loads.  After any
    sequence of calls the number of new [Error] lines is the number of
    loads whose file was missing or could not be read, and the number of
    objects allocated is the number of loads whose file could be read. *)
Theorem run_accounts_for_loads cs s :
  count_lines Error (new_lines (fst s) (fst (snd (run cs s)))) =
    length (List.filter (loads_failing (fst s)) cs) /\
  next_object (fst (snd (run cs s))) =
    (next_object (fst s) + N.of_nat (length (List.filter (loads_ok (fst s)) cs)))%N.
Proof.
  destruct (run_log cs s) as (lines & Hl & _ & _ & He).
  rewrite (new_lines_app _ _ _ Hl). split; [exact He | apply run_next_object].
Qed.

Lemma run_next_object_mono cs s :
  (next_object (fst s) <= next_object (fst (snd (run cs s))))%N.
Proof. rewrite run_next_object. lia. Qed.

Lemma exec_model_is_live c s :
  model_is_live s = true -> model_is_live (snd (exec c s)) = true.
Proof.
  destruct (exec_effect c s) as (_ & _ & _ & _ & Hm & _).
  unfold model_is_live, allocated.
  destruct (loads_ok (fst s) c); destruct Hm as [-> ->]; [|done].
  intros _. apply N.ltb_lt. lia.
Qed.

(** X5: no call leaves a dangling model pointer.  If the model pointer is
    null or points to an allocated object, it still does after any
    sequence of calls, and every object allocated before is allocated
    after. *)
Theorem run_keeps_model_live cs s :
  model_is_live s = true ->
  model_is_live (snd (run cs s)) = true /\
  forall object : ObjectId,
    allocated (fst s) object = true -> allocated (fst (snd (run cs s))) object = true.
Proof.
  intros Hlive. split.
  - revert s Hlive. induction cs as [|c cs IH]; intros s Hlive; [done|].
    rewrite run_cons. cbn [snd]. apply IH. by apply exec_model_is_live.
  - intros object. unfold allocated. rewrite !N.ltb_lt.
    pose proof (run_next_object_mono cs s). lia.
Qed.


(** ** Reads along a sequence *)

Lemma exec_set_call c s : is_set_call c = true -> exec c s = (Void, s).
Proof.
  destruct s as [w this]. destruct c; simpl; try discriminate.
  intros _. by rewrite SetParameterValue_id.
Qed.

(** X7: the [SetParameterValue] calls of a program can be struck out.
    Without them the program ends in the same state and every
    [GetParameterValue] of it returns the same value. *)
Theorem set_calls_can_be_erased cs s :
  snd (run cs s) = snd (run (List.filter (fun c => negb (is_set_call c)) cs) s) /\
  values_read (fst (run cs s)) =
    values_read (fst (run (List.filter (fun c => negb (is_set_call c)) cs) s)).
Proof.
  revert s. induction cs as [|c cs IH]; intros s; [done|].
  cbn [List.filter]. destruct (is_set_call c) eqn:Hc; cbn [negb].
  - rewrite run_cons, (exec_set_call c s Hc). cbn [fst snd]. apply IH.
  - rewrite !run_cons. cbn [fst snd]. destruct (IH (snd (exec c s))) as [IH1 IH2].
    split; [exact IH1|]. unfold values_read in *. cbn [omap list_omap]. by rewrite IH2.
Qed.

Lemma exec_response c s :
  fst (exec c s) =
    if is_get_call c
    then Value (match Live2DModel (snd s) with Some _ => float_0_5 | None => float_0_0 end)
    else Void.
Proof. destruct s as [w this]. by destruct c. Qed.

Lemma exec_get_call c s : is_get_call c = true -> snd (exec c s) = s.
Proof. destruct s as [w this]. by destruct c. Qed.

Lemma exec_keeps_model c s object :
  Live2DModel (snd s) = Some object -> is_Some (Live2DModel (snd (snd (exec c s)))).
Proof.
  intros Hm. destruct (exec_effect c s) as (_ & _ & _ & _ & Hm' & _).
  destruct (loads_ok (fst s) c); destruct Hm' as [-> _]; [eauto | rewrite Hm; eauto].
Qed.

Lemma values_read_cons r rs :
  values_read (r :: rs) =
    match r with Value v => v :: values_read rs | Void => values_read rs end.
Proof. by destruct r. Qed.

Lemma run_loaded_reads cs s object :
  Live2DModel (snd s) = Some object ->
  values_read (fst (run cs s)) = replicate (length (List.filter is_get_call cs)) float_0_5.
Proof.
  revert s object. induction cs as [|c cs IH]; intros s object Hm; [done|].
  rewrite run_cons. cbn [fst List.filter]. rewrite values_read_cons, exec_response, Hm.
  destruct (exec_keeps_model c s object Hm) as [object' Hm'].
  rewrite (IH _ _ Hm'). by destruct (is_get_call c).
Qed.

(** X8: the values read along any sequence of calls are some 0.0s
    followed by some 0.5s, one for each [GetParameterValue]: once a read
    returned 0.5 no later read returns 0.0, and no read returns anything
    else. *)
Theorem reads_are_0_0_then_0_5 cs s :
  exists k m : nat,
    values_read (fst (run cs s)) = (replicate k float_0_0 ++ replicate m float_0_5)%list /\
    k + m = length (List.filter is_get_call cs).
Proof.
  revert s. induction cs as [|c cs IH]; intros s.
  - by exists 0, 0.
  - destruct (Live2DModel (snd s)) as [object|] eqn:Hm.
    + exists 0, (length (List.filter is_get_call (c :: cs))).
      split; [|done]. by apply run_loaded_reads with object.
    + rewrite run_cons. cbn [fst List.filter]. rewrite values_read_cons, exec_response, Hm.
      destruct (IH (snd (exec c s))) as (k & m & Hv & Hkm).
      destruct (is_get_call c) eqn:Hc.
      * exists (S k), m. rewrite Hv. cbn [length]. split; [done | lia].
      * exists k, m. by rewrite Hv.
Qed.

Lemma run_unloaded cs s :
  Live2DModel (snd s) = None ->
  existsb (loads_ok (fst s)) cs = false ->
  values_read (fst (run cs s)) = replicate (length (List.filter is_get_call cs)) float_0_0 /\
  Live2DModel (snd (snd (run cs s))) = None /\
  next_object (fst (snd (run cs s))) = next_object (fst s).
Proof.
  revert s. induction cs as [|c cs IH]; intros s Hm Hcs; [done|].
  cbn [existsb] in Hcs. apply orb_false_elim in Hcs as [Hc Hcs].
  rewrite run_cons. cbn [fst snd List.filter]. rewrite values_read_cons, exec_response, Hm.
  destruct (exec_effect c s) as (Hd & _ & _ & _ & Hm' & _).
  rewrite Hc in Hm'. destruct Hm' as [Hm' Hn'].
  rewrite <- (existsb_loads_ok_same_disk _ _ _ Hd) in Hcs.
  destruct (IH (snd (exec c s))) as (Hv & Hfin & Hn); [congruence | exact Hcs |].
  rewrite Hv, Hfin, Hn, Hn'. by destruct (is_get_call c).
Qed.

Lemma run_render_resources cs s :
  RenderTarget (snd (snd (run cs s))) = RenderTarget (snd s) /\
  DynamicMaterial (snd (snd (run cs s))) = DynamicMaterial (snd s).
Proof.
  apply (run_respects (fun s s' =>
           RenderTarget (snd s') = RenderTarget (snd s) /\
           DynamicMaterial (snd s') = DynamicMaterial (snd s))).
  - done.
  - intros s1 s2 s3 [H1 H2] [H3 H4]. split; congruence.
  - intros c s0. destruct (exec_effect c s0) as (_ & Hr & Hd & _). done.
Qed.

(** X9: a component fresh from its constructor stays unloaded until a
    load finds a readable file.  Through any calls, [BeginPlay], ticks,
    sets and failing loads included, every read returns 0.0, the three
    pointers stay null and nothing is allocated. *)
Theorem fresh_component_stays_unloaded w cs :
  existsb (loads_ok w) cs = false ->
  values_read (fst (run cs (w, ULive2DCubismAvatarComponent_ctor))) =
    replicate (length (List.filter is_get_call cs)) float_0_0 /\
  Live2DModel (snd (snd (run cs (w, ULive2DCubismAvatarComponent_ctor)))) = None /\
  RenderTarget (snd (snd (run cs (w, ULive2DCubismAvatarComponent_ctor)))) = None /\
  DynamicMaterial (snd (snd (run cs (w, ULive2DCubismAvatarComponent_ctor)))) = None /\
  next_object (fst (snd (run cs (w, ULive2DCubismAvatarComponent_ctor)))) = next_object w.
Proof.
  intros Hcs.
  destruct (run_unloaded cs (w, ULive2DCubismAvatarComponent_ctor) eq_refl Hcs) as (Hv & Hm & Hn).
  destruct (run_render_resources cs (w, ULive2DCubismAvatarComponent_ctor)) as [Hr Hd].
  rewrite Hr, Hd. done.
Qed.

(** X10: no call creates or replaces the render target or the dynamic
    material: after any sequence of calls, successful loads and ticks
    included, both pointers are what they were. *)
Theorem run_never_sets_render_resources cs s :
  RenderTarget (snd (snd (run cs s))) = RenderTarget (snd s) /\
  DynamicMaterial (snd (snd (run cs s))) = DynamicMaterial (snd s).
Proof. apply run_render_resources. Qed.

(** X11: only [BeginPlay] and [TickComponent] reach the base class.  A
    sequence of loads, sets and gets leaves the base sub-object as it was,
    whatever the base class is. *)
Theorem run_without_Super_calls cs s :
  existsb calls_Super cs = false ->
  Super (snd (snd (run cs s))) = Super (snd s).
Proof.
  revert s. induction cs as [|c cs IH]; intros s Hcs; [done|].
  cbn [existsb] in Hcs. apply orb_false_elim in Hcs as [Hc Hcs].
  rewrite run_cons. cbn [snd]. rewrite (IH _ Hcs).
  destruct (exec_effect c s) as (_ & _ & _ & HS & _). by apply HS.
Qed.

(** X12: a load writes exactly one line, and the line tells what
    happened: "not found" with the path when the path is not on the disk,
    "failed to load" with the path when the file is there and cannot be
    read, and the [Log] line of a created model otherwise. *)
Theorem LoadLive2DModel_reports_outcome (path : FString) w this :
  new_lines w (fst (LoadLive2DModel path w this)) =
    [match disk w !! path with
     | None => (Error, "Model file not found: " ++ path)
     | Some None => (Error, "Failed to load model file: " ++ path)
     | Some (Some _) => (Log, "Live2D model created from data (Placeholder)")
     end].
Proof.
  destruct (disk w !! path) as [[bytes|]|] eqn:Hd.
  - rewrite (LoadLive2DModel_readable _ _ _ _ Hd). cbn [fst].
    apply (new_lines_UE_LOG Log "Live2D model created from data (Placeholder)" w).
  - rewrite (LoadLive2DModel_unreadable _ _ _ Hd). apply new_lines_UE_LOG.
  - rewrite (LoadLive2DModel_missing _ _ _ Hd). apply new_lines_UE_LOG.
Qed.

End Sequences.

(** ** Closed instances of the properties of call sequences *)

Lemma run_keeps_model_live_witness :
  model_is_live (world_with_file "model.moc3" [], @ULive2DCubismAvatarComponent_ctor plain_engine)
    = true /\
  model_is_live
    (snd (run [CallLoadLive2DModel "model.moc3";
               CallTickComponent float_0_5 LEVELTICK_All None;
               CallLoadLive2DModel "nowhere.moc3"]
            (world_with_file "model.moc3" [], @ULive2DCubismAvatarComponent_ctor plain_engine)))
    = true.
Proof.
  split; [reflexivity|].
  apply (proj1 (@run_keeps_model_live plain_engine
           [CallLoadLive2DModel "model.moc3";
            CallTickComponent float_0_5 LEVELTICK_All None;
            CallLoadLive2DModel "nowhere.moc3"]
           (world_with_file "model.moc3" [], @ULive2DCubismAvatarComponent_ctor plain_engine)
           eq_refl)).
Defined.


Lemma fresh_component_stays_unloaded_witness :
  existsb (loads_ok (world_with_file "model.moc3" []))
    [CallBeginPlay; CallLoadLive2DModel "nowhere.moc3";
     CallSetParameterValue "angleX" (float_of_Z 45); CallGetParameterValue "angleX"] = false /\
  values_read
    (fst (run [CallBeginPlay; CallLoadLive2DModel "nowhere.moc3";
               CallSetParameterValue "angleX" (float_of_Z 45); CallGetParameterValue "angleX"]
            (world_with_file "model.moc3" [], @ULive2DCubismAvatarComponent_ctor plain_engine))) =
    [float_0_0].
Proof.
  assert (existsb (loads_ok (world_with_file "model.moc3" []))
            [CallBeginPlay; CallLoadLive2DModel "nowhere.moc3";
             CallSetParameterValue "angleX" (float_of_Z 45); CallGetParameterValue "angleX"]
          = false) as Hcs.
  { vm_compute. reflexivity. }
  split; [exact Hcs|].
  exact (proj1 (@fresh_component_stays_unloaded plain_engine (world_with_file "model.moc3" [])
                  [CallBeginPlay; CallLoadLive2DModel "nowhere.moc3";
                   CallSetParameterValue "angleX" (float_of_Z 45); CallGetParameterValue "angleX"]
                  Hcs)).
Defined.

Lemma run_without_Super_calls_witness :
  existsb calls_Super
    [CallLoadLive2DModel "model.moc3"; CallSetParameterValue "angleX" (float_of_Z 45);
     CallGetParameterValue "angleX"] = false /\
  Super
    (snd (snd (run [CallLoadLive2DModel "model.moc3";
                    CallSetParameterValue "angleX" (float_of_Z 45);
                    CallGetParameterValue "angleX"]
                 (world_with_file "model.moc3" [],
                  @ULive2DCubismAvatarComponent_ctor plain_engine)))) =
  Super (@ULive2DCubismAvatarComponent_ctor plain_engine).
Proof.
  split; [reflexivity|].
  exact (@run_without_Super_calls plain_engine
           [CallLoadLive2DModel "model.moc3"; CallSetParameterValue "angleX" (float_of_Z 45);
            CallGetParameterValue "angleX"]
           (world_with_file "model.moc3" [], @ULive2DCubismAvatarComponent_ctor plain_engine)
           eq_refl).
Defined.
